(** * Azuma: the REST ratelimit bucket ([AzumaRatelimit]) and the master IPC
      dispatcher ([AzumaIPC]), shallowly embedded.

    Source: src/src/Azuma.js (class [AzumaRatelimit]) and
    src/src/ratelimits/AzumaIPC.js.

    JavaScript numbers are modelled as integers extended with NaN and the two
    infinities; every quantity the code handles (header counts, epoch seconds
    and milliseconds) is integral in this model.  [Date.now()] is an explicit
    argument [now] of each synchronous call.

    This is the fragment of IEEE-754 doubles made of whole numbers: there
    [+], [-] and [*] are exact as long as every operand and result stays
    within 2^53 in magnitude, and the model computes the same values.  A
    header whose numeric value has a fractional part (e.g. a reset of
    ["1.001"], where [1.001 * 1000] is the double [1000.9999999999999]) is
    outside the model: the statements below that do arithmetic on header
    values assume whole-number values bounded by [exact_bound]. *)

From stdpp Require Import base gmap strings pretty.
From Stdlib Require Import ZArith Ascii.

Open Scope Z_scope.

(* ------------------------------------------------------------------ *)
(** ** JavaScript numbers *)

Inductive number : Type :=
  | Fin (z : Z)
  | NaN
  | PInf
  | NInf.

Definition num_neg (a : number) : number :=
  match a with
  | Fin z => Fin (- z)
  | NaN => NaN
  | PInf => NInf
  | NInf => PInf
  end.

(** [a + b] *)
Definition num_add (a b : number) : number :=
  match a, b with
  | NaN, _ | _, NaN => NaN
  | PInf, NInf | NInf, PInf => NaN
  | PInf, _ | _, PInf => PInf
  | NInf, _ | _, NInf => NInf
  | Fin x, Fin y => Fin (x + y)
  end.

(** [a - b] *)
Definition num_sub (a b : number) : number := num_add a (num_neg b).

Definition inf_of_sign (z : Z) : number :=
  if 0 <? z then PInf else if z <? 0 then NInf else NaN.

(** [a * b] *)
Definition num_mul (a b : number) : number :=
  match a, b with
  | NaN, _ | _, NaN => NaN
  | Fin x, Fin y => Fin (x * y)
  | PInf, Fin y | Fin y, PInf => inf_of_sign y
  | NInf, Fin y | Fin y, NInf => inf_of_sign (- y)
  | PInf, PInf | NInf, NInf => PInf
  | PInf, NInf | NInf, PInf => NInf
  end.

(** [a < b] *)
Definition num_lt (a b : number) : bool :=
  match a, b with
  | NaN, _ | _, NaN => false
  | Fin x, Fin y => x <? y
  | NInf, NInf | PInf, _ => false
  | NInf, _ => true
  | Fin _, PInf => true
  | Fin _, NInf => false
  end.

(** [a <= b] *)
Definition num_le (a b : number) : bool :=
  match a, b with
  | NaN, _ | _, NaN => false
  | _, _ => negb (num_lt b a)
  end.

Definition is_nan (a : number) : bool :=
  match a with NaN => true | _ => false end.

(** [!!a] for a number: false exactly on 0 and NaN. *)
Definition num_truthy (a : number) : bool :=
  match a with
  | Fin z => negb (z =? 0)
  | NaN => false
  | _ => true
  end.

(* ------------------------------------------------------------------ *)
(** ** JavaScript values *)

#[local] Set Warnings "-register-all".
Inductive value : Type :=
  | VUndef
  | VNull
  | VBool (b : bool)
  | VNum (n : number)
  | VStr (s : string)
  | VFun (name : string)
  | VObj (props : list (string * value)).

(** Truthiness, [!!v]. *)
Definition truthy (v : value) : bool :=
  match v with
  | VUndef | VNull => false
  | VBool b => b
  | VNum n => num_truthy n
  | VStr s => negb (bool_decide (s = ""%string))
  | VFun _ | VObj _ => true
  end.

Inductive error : Type :=
  | TypeError
  | Error (msg : string).

Inductive res (A : Type) : Type :=
  | Ok (a : A)
  | Throw (e : error).
Arguments Ok {A} a.
Arguments Throw {A} e.

Global Instance res_ret : MRet res := fun A a => Ok a.
Global Instance res_bind : MBind res :=
  fun A B k r => match r with Ok a => k a | Throw e => Throw e end.

(** [Date.prototype.getTime] range: TimeClip. *)
Definition max_time : Z := 8640000000000000.

(** TimeClip(t): NaN unless [t] is finite with [|t| <= 8.64e15], else
    ToIntegerOrInfinity(t), the truncation of [t] toward zero.  Every finite
    number of this model is a whole number, on which the truncation is the
    identity; the truncation of fractional values (the case that turns
    [1000.9999999999999] into [1000]) is outside the model. *)
Definition time_clip (n : number) : number :=
  match n with
  | Fin z => if Z.abs z <=? max_time then Fin z else NaN
  | _ => NaN
  end.

(** Whole numbers of magnitude at most 2^50: a sum or difference of at most
    eight of them stays within 2^53, where double arithmetic on whole numbers
    is exact, so on such inputs the model's values are the code's. *)
Definition exact_bound : Z := 2 ^ 50.

(** The host's string conversions: [Number(s)] on strings and the parser
    behind [new Date(s)].  They are kept abstract: every theorem below holds
    for every host.  A real host matches [str_to_number] on the strings whose
    numeric value is a whole number (or NaN, or infinite); [date_parse] always
    yields whole milliseconds or NaN. *)
Class Host : Type := {
  str_to_number : string -> number;
  date_parse : string -> number
}.

Section Conversions.
Context `{hst : Host}.

(** ToNumber, as used by [Number(v)] and the global [isNaN(v)]. *)
Definition to_number (v : value) : number :=
  match v with
  | VUndef => NaN
  | VNull => Fin 0
  | VBool b => Fin (if b then 1 else 0)
  | VNum n => n
  | VStr s => str_to_number s
  | VFun _ | VObj _ => NaN
  end.

Definition js_isNaN (v : value) : bool := is_nan (to_number v).

(** [new Date(v).getTime()] *)
Definition date_getTime (v : value) : number :=
  match v with
  | VStr s => date_parse s
  | _ => time_clip (to_number v)
  end.

End Conversions.

(* ------------------------------------------------------------------ *)
(** ** Strings *)

Definition ascii_lower (c : ascii) : ascii :=
  let n := nat_of_ascii c in
  if (65 <=? n)%nat && (n <=? 90)%nat then ascii_of_nat (n + 32) else c.

(** [s.toLowerCase()], on the ASCII letters. *)
Fixpoint str_lower (s : string) : string :=
  match s with
  | EmptyString => EmptyString
  | String c s' => String (ascii_lower c) (str_lower s')
  end.

(** [s.includes(sub)] *)
Definition str_includes (s sub : string) : bool :=
  match String.index 0 sub s with Some _ => true | None => false end.

(* ------------------------------------------------------------------ *)
(** ** The ratelimit manager and a ratelimit bucket *)

(** Debug messages [this.manager.azuma.emit('debug', ...)], by their
    interpolated fields. *)
Inductive debug : Type :=
  | DbgHashUpdate (route : string) (old_hash : string) (new_hash : value)
  | DbgGlobal (after : number).

(** The fields of the [AzumaManager] (and of its [azuma]) that a bucket
    reads or writes.  [timers] holds the due times of the pending
    [sleep(this.after).then(() => this.manager.timeout = 0)] tasks.
    [sweepInterval] is [this.manager.azuma.sweepInterval]; the [Azuma]
    class in the source never assigns it, so it reads [undefined], which
    enters a numeric sum as [NaN]. *)
Record Manager : Type := mkManager {
  timeout : number;
  hashes : gmap string value;
  debug_log : list debug;
  timers : list Z;
  sweepInterval : number
}.

(** [class AzumaRatelimit] *)
Record Ratelimit : Type := mkRatelimit {
  rid : string;
  hash : string;
  route : string;
  limit : number;
  remaining : number;
  reset : number;
  after : number
}.

(** [new AzumaRatelimit(manager, id, hash, route)] *)
Definition new_ratelimit (id hash route : string) : Ratelimit :=
  mkRatelimit id hash route (Fin (-1)) (Fin (-1)) (Fin (-1)) (Fin (-1)).

(** Assignments to [this.limit], [this.remaining], [this.reset] and
    [this.after]. *)
Definition set_counters (b : Ratelimit) (l rm rs a : number) : Ratelimit :=
  mkRatelimit (rid b) (hash b) (route b) l rm rs a.

Definition set_reset (b : Ratelimit) (rs : number) : Ratelimit :=
  mkRatelimit (rid b) (hash b) (route b) (limit b) (remaining b) rs (after b).

(** The header set object, [{ date, limit, remaining, reset, hash, after,
    global, reactions }]; a missing property is [VUndef]. *)
Record HeaderSet : Type := mkHeaderSet {
  hs_date : value;
  hs_limit : value;
  hs_remaining : value;
  hs_reset : value;
  hs_hash : value;
  hs_after : value;
  hs_global : value;
  hs_reactions : value
}.

Definition empty_headerset : HeaderSet :=
  mkHeaderSet VUndef VUndef VUndef VUndef VUndef VUndef VUndef VUndef.

(** The third argument of [update]: omitted ([undefined], replaced by the
    default [{}]), [null], or an object. *)
Inductive HeaderArg : Type :=
  | DUndef
  | DNull
  | DObj (h : HeaderSet).

(** A fetch [Headers] object: entries by lower-case name. *)
Definition Headers := list (string * string).

(** [headers.get(name)]: the value, or [null] when the header is absent. *)
Definition headers_get (hs : Headers) (name : string) : value :=
  match list_find (fun e => e.1 = str_lower name) hs with
  | Some (_, (_, v)) => VStr v
  | None => VNull
  end.

Record Request : Type := mkRequest { req_route : string }.

(** [AzumaRatelimit.constructData(request, headers)]; an absent request or
    headers object is [None]. *)
Definition constructData (request : option Request) (headers : option Headers)
    : res HeaderSet :=
  match request, headers with
  | Some rq, Some h =>
      Ok (mkHeaderSet
            (headers_get h "date")
            (headers_get h "x-ratelimit-limit")
            (headers_get h "x-ratelimit-remaining")
            (headers_get h "x-ratelimit-reset")
            (headers_get h "X-RateLimit-Bucket")
            (headers_get h "retry-after")
            (VBool (truthy (headers_get h "x-ratelimit-global")))
            (VBool (str_includes (req_route rq) "reactions")))
  | _, _ => Throw (Error "Request and Headers can't be null")
  end.

Section Bucket.
Context `{hst : Host}.

(** [AzumaRatelimit.getAPIOffset(date)] *)
Definition getAPIOffset (date : value) (now : Z) : number :=
  num_sub (date_getTime date) (Fin now).

(** [AzumaRatelimit.calculateReset(reset, date)] *)
Definition calculateReset (reset date : value) (now : Z) : number :=
  num_sub (time_clip (num_mul (to_number reset) (Fin 1000)))
          (getAPIOffset date now).

(** [get limited()] *)
Definition limited (b : Ratelimit) (m : Manager) (now : Z) : bool :=
  num_truthy (timeout m) ||
  (num_le (remaining b) (Fin 0) && num_lt (Fin now) (reset b)).

(** [hash !== this.hash], the bucket's hash being a string. *)
Definition strict_neq_str (v : value) (s : string) : bool :=
  match v with
  | VStr s' => negb (bool_decide (s' = s))
  | _ => true
  end.

(** The delay Node's timers use for [setTimeout(after)]: values outside
    [1, 2^31 - 1] (and NaN) become 1. *)
Definition node_delay (a : number) : Z :=
  match a with
  | Fin z => if (1 <=? z) && (z <=? 2147483647) then z else 1
  | _ => 1
  end.

(** [update(method, route, data)] *)
Definition update (b : Ratelimit) (m : Manager) (now : Z)
    (method route : string) (data : HeaderArg) : res (Ratelimit * Manager) :=
  h ← match data with
      | DUndef => Ok empty_headerset
      | DNull => Throw TypeError
      | DObj h => Ok h
      end;
  let limit' := if js_isNaN (hs_limit h) then PInf else to_number (hs_limit h) in
  let remaining' :=
    if js_isNaN (hs_remaining h) then Fin (-1) else to_number (hs_remaining h) in
  let reset' :=
    if js_isNaN (hs_reset h) then Fin now
    else calculateReset (hs_reset h) (hs_date h) now in
  let after' :=
    if js_isNaN (hs_after h) then Fin (-1)
    else num_mul (to_number (hs_after h)) (Fin 1000) in
  let b1 := set_counters b limit' remaining' reset' after' in
  let m1 :=
    if truthy (hs_hash h) && strict_neq_str (hs_hash h) (hash b) then
      mkManager (timeout m)
        (<[ (method +:+ ":" +:+ route)%string := hs_hash h ]> (hashes m))
        (debug_log m ++ [DbgHashUpdate route (hash b) (hs_hash h)])
        (timers m) (sweepInterval m)
    else m in
  let b2 :=
    if truthy (hs_reactions h) then
      set_reset b1
        (num_add (num_sub (date_getTime (hs_date h))
                          (getAPIOffset (hs_date h) now))
                 (sweepInterval m1))
    else b1 in
  let m2 :=
    if truthy (hs_global h) then
      mkManager (num_add (Fin now) (after b2)) (hashes m1)
        (debug_log m1 ++ [DbgGlobal (after b2)])
        (timers m1 ++ [now + node_delay (after b2)]) (sweepInterval m1)
    else m1 in
  Ok (b2, m2).

End Bucket.


(* ------------------------------------------------------------------ *)
(** ** Property access and the master IPC dispatcher *)

(** The methods every object inherits from [Object.prototype]. *)
Definition object_prototype_methods : list string :=
  ["constructor"; "toString"; "toLocaleString"; "valueOf"; "hasOwnProperty";
   "isPrototypeOf"; "propertyIsEnumerable"; "__defineGetter__";
   "__defineSetter__"; "__lookupGetter__"; "__lookupSetter__"]%string.

(** Everything every object inherits from [Object.prototype]: its methods
    and the [__proto__] accessor. *)
Definition object_prototype_members : list string :=
  object_prototype_methods ++ ["__proto__"]%string.

(** [Object.prototype] itself: its methods as own properties, and a null
    prototype. *)
Definition object_prototype : value :=
  VObj (map (fun k => (k, VFun k)) object_prototype_methods
        ++ [("__proto__"%string, VNull)]).

(** The prototype of a primitive's wrapper ([String.prototype], ...): the
    given methods as own properties, over [Object.prototype]. *)
Definition wrapper_prototype (members : list string) : value :=
  VObj (map (fun k => (k, VFun k)) members
        ++ [("__proto__"%string, object_prototype)]).

Definition boolean_prototype_members : list string :=
  ["constructor"; "toString"; "valueOf"]%string.

Definition string_prototype_members : list string :=
  ["toLowerCase"; "toUpperCase"; "includes"; "indexOf"; "slice"; "split";
   "trim"; "charAt"; "charCodeAt"; "startsWith"; "endsWith"; "replace"]%string.

Definition number_prototype_members : list string :=
  ["toFixed"; "toPrecision"; "toExponential"]%string.

Definition function_prototype_members : list string :=
  ["call"; "apply"; "bind"; "name"; "length"]%string.

(** An inherited member, for a value whose prototype has the own methods
    [members] ([[]] for a plain object, whose prototype is [Object.prototype]):
    the [__proto__] accessor returns the prototype object, a method of the
    chain is a function, anything else is [undefined]. *)
Definition proto_get (members : list string) (k : string) : value :=
  if bool_decide (k = "__proto__"%string) then
    match members with
    | [] => object_prototype
    | _ => wrapper_prototype members
    end
  else if bool_decide (k ∈ members ++ object_prototype_members) then VFun k
  else VUndef.

(** Own property lookup on an object. *)
Definition own_get (ps : list (string * value)) (k : string) : option value :=
  match list_find (fun e => e.1 = k) ps with
  | Some (_, (_, x)) => Some x
  | None => None
  end.

(** [v[k]]: reading a property of [undefined] or [null] throws. *)
Definition js_get (v : value) (k : string) : res value :=
  match v with
  | VUndef | VNull => Throw TypeError
  | VObj ps =>
      Ok (match own_get ps k with Some x => x | None => proto_get [] k end)
  | VStr s =>
      Ok (if bool_decide (k = "length"%string) then VNum (Fin (Z.of_nat (String.length s)))
          else proto_get string_prototype_members k)
  | VNum _ => Ok (proto_get number_prototype_members k)
  | VBool _ => Ok (proto_get boolean_prototype_members k)
  | VFun _ => Ok (proto_get function_prototype_members k)
  end.

(** ToPropertyKey, for the [IPCEvents[op]] lookup. *)
Definition to_property_key (v : value) : string :=
  match v with
  | VUndef => "undefined"
  | VNull => "null"
  | VBool true => "true"
  | VBool false => "false"
  | VNum (Fin z) => pretty z
  | VNum NaN => "NaN"
  | VNum PInf => "Infinity"
  | VNum NInf => "-Infinity"
  | VStr s => s
  | VFun name => name
  | VObj _ => "[object Object]"
  end%string.

(** [v?.toLowerCase()]: [undefined] when [v] is nullish; a string is lowered;
    the other values an enum lookup yields (numbers, booleans, the inherited
    [Object.prototype] methods) have no [toLowerCase], so the call throws. *)
Definition optional_toLowerCase (v : value) : res value :=
  match v with
  | VUndef | VNull => Ok VUndef
  | VStr s => Ok (VStr (str_lower s))
  | _ => Throw TypeError
  end.

Inductive outcome : Type :=
  | Dropped
  | Handled (handler : string).

(** [AzumaIPC.prototype._incommingMessage(message)]: [events] is kurasuta's
    [IPCEvents] object and [methods] the method names of the IPC instance. *)
Definition incommingMessage (events : value) (methods : list string)
    (message : value) : res outcome :=
  data ← js_get message "data";
  op ← js_get data "op";
  ev ← js_get events (to_property_key op);
  event ← optional_toLowerCase ev;
  if negb (truthy event) then Ok Dropped
  else
    let name := ("_" +:+ to_property_key event)%string in
    if bool_decide (name ∈ methods) then Ok (Handled name)
    else Throw TypeError.

(** One message handled by the master process, over the state [st] the
    handlers act on. *)
Definition ipc_step {S : Type} (handle : string -> value -> S -> res S)
    (events : value) (methods : list string) (st : S) (message : value)
    : res S :=
  o ← incommingMessage events methods message;
  match o with
  | Dropped => Ok st
  | Handled h => handle h message st
  end.

(** A dispatch key: an [op] whose own [IPCEvents] entry is a name with a
    handler [_name] on the IPC instance. *)
Definition recognized_op (events : value) (methods : list string) (op : value)
    : bool :=
  match events with
  | VObj ps =>
      match own_get ps (to_property_key op) with
      | Some (VStr s) =>
          bool_decide (s <> ""%string) &&
          bool_decide (("_" +:+ str_lower s)%string ∈ methods)
      | _ => false
      end
  | _ => false
  end.

(* ------------------------------------------------------------------ *)
(** ** Concrete instances, for evaluation at explicit inputs *)

(** Decimal digits, read into an integer. *)
Fixpoint digits_value (s : string) (acc : Z) : option Z :=
  match s with
  | EmptyString => Some acc
  | String c s' =>
      let n := nat_of_ascii c in
      if (48 <=? n)%nat && (n <=? 57)%nat
      then digits_value s' (acc * 10 + Z.of_nat (n - 48))
      else None
  end.

(** [Number(s)] on the fragment of optionally signed decimal integers
    (which it reads as JavaScript does, [Number("") = 0]); NaN elsewhere. *)
Definition decimal_number (s : string) : number :=
  match s with
  | EmptyString => Fin 0
  | String "-"%char EmptyString => NaN
  | String "-"%char s' =>
      match digits_value s' 0 with Some z => Fin (- z) | None => NaN end
  | _ => match digits_value s 0 with Some z => Fin z | None => NaN end
  end.

(** [Date.parse] on a few HTTP dates, in milliseconds since the epoch. *)
Definition http_date_table : list (string * Z) :=
  [("Thu, 01 Jan 1970 00:00:00 GMT", 0);
   ("Thu, 01 Jan 1970 00:00:10 GMT", 10000);
   ("Thu, 01 Jan 1970 00:01:40 GMT", 100000)]%string.

Definition table_date_parse (s : string) : number :=
  match list_find (fun e => e.1 = s) http_date_table with
  | Some (_, (_, z)) => Fin z
  | None => NaN
  end.

Definition sample_host : Host :=
  {| str_to_number := decimal_number; date_parse := table_date_parse |}.

(** A fresh manager: no halt, no hashes, no pending task, and
    [azuma.sweepInterval] as given. *)
Definition fresh_manager (sweep : number) : Manager :=
  mkManager (Fin 0) ∅ [] [] sweep.

(** A header set as [constructData] builds it from a response, with the
    reactions flag given. *)
Definition response_headers (date limit remaining reset hash after : value)
    (global reactions : bool) : HeaderSet :=
  mkHeaderSet date limit remaining reset hash after (VBool global)
    (VBool reactions).

(** The number of hash-update messages in a debug log. *)
Definition is_hash_event (d : debug) : bool :=
  match d with DbgHashUpdate _ _ _ => true | DbgGlobal _ => false end.

Definition hash_events (log : list debug) : nat :=
  length (List.filter is_hash_event log).

(** kurasuta's [IPCEvents]: a compiled TypeScript numeric enum, whose own
    properties map each name to its index and each index to its name. *)
Definition ipc_event_names : list string :=
  ["EVAL"; "MESSAGE"; "BROADCAST"; "READY"; "SHARDREADY"; "SHARDRECONNECT";
   "SHARDRESUME"; "SHARDDISCONNECT"; "MASTEREVAL"; "RESTARTALL"; "RESTART";
   "FETCHUSER"; "FETCHCHANNEL"; "FETCHGUILD"]%string.

Definition enum_object (names : list string) : value :=
  VObj (imap (fun i n => (n, VNum (Fin (Z.of_nat i)))) names ++
        imap (fun i n => (pretty (Z.of_nat i), VStr n)) names).

Definition IPCEvents : value := enum_object ipc_event_names.

(** The handler methods of kurasuta's [MasterIPC], inherited by [AzumaIPC]. *)
Definition master_ipc_methods : list string :=
  ["_message"; "_broadcast"; "_ready"; "_shardready"; "_shardreconnect";
   "_shardresume"; "_sharddisconnect"; "_restart"; "_mastereval";
   "_restartall"; "_fetchuser"; "_fetchguild"; "_fetchchannel"]%string.

(** A message [{ data: { op } }]. *)
Definition op_message (op : value) : value :=
  VObj [("data"%string, VObj [("op"%string, op)])].

(** [get timeout()]: [this.reset + this.manager.azuma.options.requestOffset
    - Date.now()], [requestOffset] being the option of that name. *)
Definition ratelimit_timeout (b : Ratelimit) (requestOffset : number) (now : Z)
    : number :=
  num_sub (num_add (reset b) requestOffset) (Fin now).

(** Sample inputs: a bucket of a message route, a reactions route, and the
    header set of a response to it. *)
Definition msg_bucket : Ratelimit :=
  new_ratelimit "GET:/channels/1/messages" "h1" "/channels/1/messages".

Definition date_0s : value := VStr "Thu, 01 Jan 1970 00:00:00 GMT".
Definition date_10s : value := VStr "Thu, 01 Jan 1970 00:00:10 GMT".

Definition reaction_route : string := "/channels/1/messages/2/reactions".

(** The header set [h] with its [reset] replaced. *)
Definition hs_with_reset (h : HeaderSet) (r : value) : HeaderSet :=
  mkHeaderSet (hs_date h) (hs_limit h) (hs_remaining h) r (hs_hash h)
    (hs_after h) (hs_global h) (hs_reactions h).

(** The bucket's [reset] after an update, when it succeeds. *)
Definition reset_of (r : res (Ratelimit * Manager)) : option number :=
  match r with Ok (b, _) => Some (reset b) | Throw _ => None end.

(** The reset time as the specification states it:
    [reset * 1000 - (serverDate - now)], without the Date range. *)
Definition spec_reset `{Host} (reset date : value) (now : Z) : number :=
  num_sub (num_mul (to_number reset) (Fin 1000))
          (num_sub (date_getTime date) (Fin now)).

(** The [limited] property as the specification states it:
    [globalHaltUntil > now || (remaining <= 0 && now < reset)]. *)
Definition spec_limited (b : Ratelimit) (m : Manager) (now : Z) : bool :=
  num_lt (Fin now) (timeout m) ||
  (num_le (remaining b) (Fin 0) && num_lt (Fin now) (reset b)).

(* ================================================================== *)
(** * Properties *)

Section Properties.
Context `{hst : Host}.

(** The object form of the header argument: [update] is total on it. *)
Lemma update_obj_ok (b : Ratelimit) (m : Manager) (now : Z)
    (method route : string) (h : HeaderSet) :
  exists b' m', update b m now method route (DObj h) = Ok (b', m').
Proof. unfold update; simpl. eauto. Qed.

Lemma hash_events_app (l1 l2 : list debug) :
  hash_events (l1 ++ l2) = (hash_events l1 + hash_events l2)%nat.
Proof. unfold hash_events. by rewrite List.filter_app, length_app. Qed.


(** C1 (amended): [limited] is true iff the manager's [timeout] is truthy
    (non-zero and not NaN, whether or not it lies in the past), or
    [remaining <= 0] and [now < reset]. *)
Theorem limited_iff (b : Ratelimit) (m : Manager) (now : Z) :
  limited b m now = true <->
  (timeout m <> Fin 0 /\ timeout m <> NaN) \/
  (num_le (remaining b) (Fin 0) = true /\ num_lt (Fin now) (reset b) = true).
Proof.
  unfold limited. rewrite orb_true_iff, andb_true_iff.
  destruct (timeout m) as [z| | |]; simpl.
  - destruct (Z.eqb_spec z 0) as [->|Hz]; simpl.
    + split; [intros [H|H]; [discriminate|by right]|].
      intros [[H _]|H]; [done|by right].
    + split; [intros _; left; split; congruence|intros _; by left].
  - split; [intros [H|H]; [discriminate|by right]|].
    intros [[_ H]|H]; [done|by right].
  - split; [intros _; left; split; discriminate|intros _; by left].
  - split; [intros _; left; split; discriminate|intros _; by left].
Qed.

(** What one [update] with a header object does, field by field. *)
Lemma update_fields (b b' : Ratelimit) (m m' : Manager) (now : Z)
    (method route : string) (h : HeaderSet) :
  update b m now method route (DObj h) = Ok (b', m') ->
  let after' := if js_isNaN (hs_after h) then Fin (-1)
                else num_mul (to_number (hs_after h)) (Fin 1000) in
  let moved := truthy (hs_hash h) && strict_neq_str (hs_hash h) (hash b) in
  rid b' = rid b /\ hash b' = hash b /\
  limit b' = (if js_isNaN (hs_limit h) then PInf else to_number (hs_limit h)) /\
  remaining b' = (if js_isNaN (hs_remaining h) then Fin (-1)
                  else to_number (hs_remaining h)) /\
  reset b' = (if truthy (hs_reactions h) then
                num_add (num_sub (date_getTime (hs_date h))
                                 (getAPIOffset (hs_date h) now))
                        (sweepInterval m)
              else if js_isNaN (hs_reset h) then Fin now
              else calculateReset (hs_reset h) (hs_date h) now) /\
  after b' = after' /\
  timeout m' = (if truthy (hs_global h) then num_add (Fin now) after'
                else timeout m) /\
  hashes m' = (if moved
               then <[ (method +:+ ":" +:+ route)%string := hs_hash h ]> (hashes m)
               else hashes m) /\
  debug_log m' = debug_log m ++
                 (if moved then [DbgHashUpdate route (hash b) (hs_hash h)] else []) ++
                 (if truthy (hs_global h) then [DbgGlobal after'] else []) /\
  timers m' = timers m ++
              (if truthy (hs_global h) then [now + node_delay after'] else []) /\
  sweepInterval m' = sweepInterval m.
Proof.
  unfold update; simpl. intros H. injection H as <- <-.
  destruct (truthy (hs_hash h) && strict_neq_str (hs_hash h) (hash b));
  destruct (truthy (hs_reactions h)); destruct (truthy (hs_global h));
  simpl; rewrite ?app_nil_r, <-?app_assoc; repeat split.
Qed.


(** C3 (amended): when the hash header is a non-empty string [s] different
    from the bucket's own [hash], [update] sets [hashes[method:route] = s]
    and logs one hash-update message; [update] never changes the bucket's
    [hash], so a second update of the resulting bucket with the same hash
    logs the message again, while leaving the mapping as it was. *)
Theorem update_hash_migration (b b1 b2 : Ratelimit) (m m1 m2 : Manager)
    (now now' : Z) (method route s : string) (h : HeaderSet) :
  hs_hash h = VStr s -> s <> ""%string -> s <> hash b ->
  update b m now method route (DObj h) = Ok (b1, m1) ->
  update b1 m1 now' method route (DObj h) = Ok (b2, m2) ->
  hashes m1 = <[ (method +:+ ":" +:+ route)%string := VStr s ]> (hashes m) /\
  hashes m2 = hashes m1 /\
  hash b1 = hash b /\ hash b2 = hash b /\
  hash_events (debug_log m1) = S (hash_events (debug_log m)) /\
  hash_events (debug_log m2) = S (hash_events (debug_log m1)).
Proof.
  intros Hh Hne Hdiff H1 H2.
  pose proof (update_fields _ _ _ _ _ _ _ _ H1)
    as (_ & Hb1 & _ & _ & _ & _ & _ & Hm1 & Hl1 & _).
  pose proof (update_fields _ _ _ _ _ _ _ _ H2)
    as (_ & Hb2 & _ & _ & _ & _ & _ & Hm2 & Hl2 & _).
  simpl in Hm1, Hl1, Hm2, Hl2. rewrite Hb1 in Hm2, Hl2.
  rewrite Hh in Hm1, Hl1, Hm2, Hl2. simpl in Hm1, Hl1, Hm2, Hl2.
  rewrite !bool_decide_false in Hm1, Hl1, Hm2, Hl2 by done. simpl in *.
  rewrite Hl2, Hl1, Hm2, Hm1, !hash_events_app.
  split; [done|]. split; [by rewrite insert_insert_eq|].
  split; [done|]. split; [congruence|].
  split; destruct (truthy (hs_global h)); unfold hash_events; cbn; lia.
Qed.

(** C5: on a reactions route the update sets [reset] to
    [new Date(date).getTime() - getAPIOffset(date) + sweepInterval],
    whatever the reset header says. *)
Theorem update_reactions_reset (b : Ratelimit) (m : Manager) (now : Z)
    (method route : string) (h : HeaderSet) :
  truthy (hs_reactions h) = true ->
  exists b' m',
    update b m now method route (DObj h) = Ok (b', m') /\
    reset b' = num_add (num_sub (date_getTime (hs_date h))
                                (getAPIOffset (hs_date h) now))
                       (sweepInterval m) /\
    (forall r : value,
       reset_of (update b m now method route (DObj (hs_with_reset h r)))
       = Some (reset b')).
Proof.
  intros Hr. destruct (update_obj_ok b m now method route h) as (b' & m' & Hu).
  exists b', m'. split; [done|].
  pose proof (update_fields _ _ _ _ _ _ _ _ Hu) as (_ & _ & _ & _ & Hrs & _).
  rewrite Hr in Hrs. split; [done|].
  intros r. destruct (update_obj_ok b m now method route (hs_with_reset h r))
    as (b'' & m'' & Hu'). rewrite Hu'. simpl.
  pose proof (update_fields _ _ _ _ _ _ _ _ Hu') as (_ & _ & _ & _ & Hrs' & _).
  simpl in Hrs'. rewrite Hr in Hrs'. by rewrite Hrs', Hrs.
Qed.

(** [calculateReset] on a reset whose product with 1000 is in the Date
    range. *)
Lemma calculateReset_in_range (reset date : value) (now R : Z) :
  to_number reset = Fin R -> Z.abs (R * 1000) <= max_time ->
  calculateReset reset date now =
    num_sub (Fin (R * 1000)) (num_sub (date_getTime date) (Fin now)).
Proof.
  intros HR Hrange. unfold calculateReset, getAPIOffset. rewrite HR. simpl.
  by rewrite (proj2 (Z.leb_le _ _) Hrange).
Qed.

Lemma exact_bound_le_max_time (z : Z) :
  Z.abs z <= exact_bound -> Z.abs z <= max_time.
Proof.
  intros H. enough (exact_bound <= max_time) by lia.
  unfold exact_bound, max_time. vm_compute. discriminate.
Qed.

(** C6 (amended): for a reset header whose value is a whole number [R] of
    seconds and a date header parsed to [D] ms, with [|R * 1000|], [|D|] and
    [now] at most 2^50 (so [R * 1000] is in the Date range and every double
    operation of the computation is exact), [calculateReset] is
    [R * 1000 - (D - now)]; with [D = now] it is [R * 1000]. *)
Theorem calculateReset_value (reset date : value) (now R D : Z) :
  to_number reset = Fin R -> date_getTime date = Fin D ->
  Z.abs (R * 1000) <= exact_bound -> Z.abs D <= exact_bound ->
  Z.abs now <= exact_bound ->
  calculateReset reset date now = Fin (R * 1000 - (D - now)) /\
  (D = now -> calculateReset reset date now = Fin (R * 1000)).
Proof.
  intros HR HD HRb HDb Hnb.
  rewrite (calculateReset_in_range reset date now R HR
             (exact_bound_le_max_time _ HRb)), HD. simpl.
  split.
  - f_equal; lia.
  - intros ->. f_equal; lia.
Qed.

(** C7 (code defect): for a response without ratelimit headers,
    [constructData] yields [limit] and [remaining] equal to [null]
    ([headers.get] of an absent header), and [isNaN(null)] is false, so
    [update] sets [limit] to [Number(null) = 0] (not Infinity) and
    [remaining] to 0 (not -1). *)
Theorem update_absent_ratelimit_headers (b : Ratelimit) (m : Manager)
    (now : Z) (method rt date : string) :
  exists h b' m',
    constructData (Some (mkRequest rt)) (Some [("date"%string, date)]) = Ok h /\
    hs_limit h = VNull /\ hs_remaining h = VNull /\
    update b m now method rt (DObj h) = Ok (b', m') /\
    limit b' = Fin 0 /\ remaining b' = Fin 0.
Proof.
  eexists. destruct (update_obj_ok b m now method rt
    (mkHeaderSet (VStr date) VNull VNull VNull VNull VNull (VBool false)
       (VBool (str_includes rt "reactions")))) as (b' & m' & Hu).
  exists b', m'. split; [reflexivity|]. split; [done|]. split; [done|].
  split; [exact Hu|].
  pose proof (update_fields _ _ _ _ _ _ _ _ Hu) as (_ & _ & Hl & Hrm & _).
  by rewrite Hl, Hrm.
Qed.

(** C8 (amended): [constructData] throws [Error] when the request or the
    headers are absent; it reads and writes no state.  [update] does no
    such validation: with the header argument omitted it succeeds with the
    defaults (limit Infinity, remaining -1, reset now, after -1) and leaves
    the manager as it was; with [null] it throws a TypeError before any
    assignment. *)
Theorem constructData_validation (rq : option Request) (hs : option Headers) :
  (rq = None \/ hs = None) ->
  constructData rq hs = Throw (Error "Request and Headers can't be null") /\
  (forall (b : Ratelimit) (m : Manager) (now : Z) (method route : string),
     update b m now method route DUndef =
       Ok (set_counters b PInf (Fin (-1)) (Fin now) (Fin (-1)), m) /\
     update b m now method route DNull = Throw TypeError).
Proof.
  intros Hn. split.
  - destruct Hn as [->| ->]; [done|]. by destruct rq.
  - intros b m now method route. split; reflexivity.
Qed.

(** C9 (amended): the [reset] an update computes depends on the header set
    and [now] alone (calculateReset, [now] without a numeric reset header,
    the reactions formula on reaction routes); the bucket's previous
    [reset] is never consulted, so [reset] may move backwards. *)
Theorem update_reset_overwrites (b : Ratelimit) (m : Manager) (now : Z)
    (method route : string) (data : HeaderArg) (r : number) :
  reset_of (update (set_reset b r) m now method route data) =
  reset_of (update b m now method route data).
Proof.
  destruct data as [| |h]; [done|done|].
  unfold update; simpl.
  destruct (truthy (hs_hash h) && strict_neq_str (hs_hash h) (hash b));
  destruct (truthy (hs_reactions h)); destruct (truthy (hs_global h));
  reflexivity.
Qed.

End Properties.

Section Dispatch.

(** No primitive value and no function has an [op] member. *)
Lemma js_get_op_non_object (v : value) :
  (forall ps, v <> VObj ps) -> v <> VUndef -> v <> VNull ->
  js_get v "op" = Ok VUndef.
Proof.
  intros Ho Hu Hn.
  destruct v as [| | | | | |ps]; [congruence|congruence| | | | |];
    try (by destruct (Ho ps)); vm_compute; reflexivity.
Qed.

Lemma js_get_undefined_key (ps : list (string * value)) :
  own_get ps "undefined" = None -> js_get (VObj ps) "undefined" = Ok VUndef.
Proof. intros H. unfold js_get. rewrite H. vm_compute. reflexivity. Qed.

(** C10: [_incommingMessage] reads [message.data.op]; when [message.data] is
    undefined the read throws a TypeError.  A message reaches a handler only
    when its [data] is an object (for an [IPCEvents] object without an own
    ["undefined"] key, as kurasuta's is). *)
Theorem incommingMessage_needs_data (events : value) (methods : list string)
    (message : value) :
  (js_get message "data" = Ok VUndef ->
   incommingMessage events methods message = Throw TypeError) /\
  (forall (ps : list (string * value)) (hd : string),
     events = VObj ps -> own_get ps "undefined" = None ->
     incommingMessage events methods message = Ok (Handled hd) ->
     exists ps', js_get message "data" = Ok (VObj ps')).
Proof.
  split.
  - intros Hd. unfold incommingMessage. by rewrite Hd.
  - intros ps hd -> Hu H. unfold incommingMessage in H.
    destruct (js_get message "data") as [data|e]; [|discriminate].
    destruct data as [| |bo|n|str|f|ps'];
      [discriminate|discriminate| | | | |by eauto];
      (cbn [mbind res_bind] in H;
       rewrite js_get_op_non_object in H by congruence;
       cbn [mbind res_bind to_property_key] in H;
       rewrite js_get_undefined_key in H by done;
       discriminate).
Qed.

(** C4 (code defect): an [op] that is no dispatch key but names a member
    every object inherits (["toString"]), or a name of the enum
    (["BROADCAST"], whose entry is the number 2), makes
    [IPCEvents[op]?.toLowerCase()] throw a TypeError instead of dropping the
    message. *)
Theorem dispatch_unknown_op_throws {S : Type}
    (handle : string -> value -> S -> res S) (st : S) :
  recognized_op IPCEvents master_ipc_methods (VStr "toString") = false /\
  ipc_step handle IPCEvents master_ipc_methods st
    (op_message (VStr "toString")) = Throw TypeError /\
  recognized_op IPCEvents master_ipc_methods (VStr "BROADCAST") = false /\
  ipc_step handle IPCEvents master_ipc_methods st
    (op_message (VStr "BROADCAST")) = Throw TypeError.
Proof. vm_compute. repeat split. Qed.

End Dispatch.

(* ------------------------------------------------------------------ *)
(** ** Further properties of the bucket and of the dispatcher *)

Section BucketExtras.
Context `{hst : Host}.

(** [update] never reassigns a bucket's [id], [hash] or [route]. *)
Theorem update_keeps_identity (b b' : Ratelimit) (m m' : Manager) (now : Z)
    (method rt : string) (d : HeaderArg) :
  update b m now method rt d = Ok (b', m') ->
  rid b' = rid b /\ hash b' = hash b /\ route b' = route b.
Proof.
  intros H. destruct d as [| |h].
  - injection H as <- <-. done.
  - discriminate.
  - pose proof (update_fields _ _ _ _ _ _ _ _ H) as (Hi & Hh & _).
    unfold update in H; simpl in H.
    destruct (truthy (hs_hash h) && strict_neq_str (hs_hash h) (hash b));
    destruct (truthy (hs_reactions h)); destruct (truthy (hs_global h));
    injection H as <- <-; done.
Qed.

(** [update] writes the route-to-hash map at the key [method:route] only. *)
Theorem update_hashes_other_keys (b b' : Ratelimit) (m m' : Manager) (now : Z)
    (method rt key : string) (d : HeaderArg) :
  key <> (method +:+ ":" +:+ rt)%string ->
  update b m now method rt d = Ok (b', m') ->
  hashes m' !! key = hashes m !! key.
Proof.
  intros Hk H. destruct d as [| |h].
  - by injection H as <- <-.
  - discriminate.
  - pose proof (update_fields _ _ _ _ _ _ _ _ H)
      as (_ & _ & _ & _ & _ & _ & _ & Hm & _).
    rewrite Hm. case_match; [|done]. by rewrite lookup_insert_ne.
Qed.

(** With no hash header (or a falsy one), or with the bucket's own hash,
    [update] leaves the route-to-hash map as it was and logs no hash-update
    message. *)
Theorem update_same_hash_no_migration (b b' : Ratelimit) (m m' : Manager)
    (now : Z) (method rt : string) (h : HeaderSet) :
  (truthy (hs_hash h) = false \/ hs_hash h = VStr (hash b)) ->
  update b m now method rt (DObj h) = Ok (b', m') ->
  hashes m' = hashes m /\ hash_events (debug_log m') = hash_events (debug_log m).
Proof.
  intros Hh H.
  pose proof (update_fields _ _ _ _ _ _ _ _ H)
    as (_ & _ & _ & _ & _ & _ & _ & Hm & Hl & _).
  assert (Hmv : truthy (hs_hash h) && strict_neq_str (hs_hash h) (hash b) = false).
  { destruct Hh as [-> | ->]; [done|]. simpl.
    rewrite (bool_decide_true (hash b = hash b)) by done.
    by rewrite andb_false_r. }
  simpl in Hm, Hl. rewrite Hmv in Hm, Hl. split; [done|].
  rewrite Hl, !hash_events_app. destruct (truthy (hs_global h)); done.
Qed.

(** Without the global flag, [update] leaves the manager's halt and its
    pending clears untouched. *)
Theorem update_not_global_keeps_halt (b b' : Ratelimit) (m m' : Manager)
    (now : Z) (method rt : string) (h : HeaderSet) :
  truthy (hs_global h) = false ->
  update b m now method rt (DObj h) = Ok (b', m') ->
  timeout m' = timeout m /\ timers m' = timers m.
Proof.
  intros Hg H.
  pose proof (update_fields _ _ _ _ _ _ _ _ H)
    as (_ & _ & _ & _ & _ & _ & Ht & _ & _ & Htm & _).
  simpl in Ht, Htm. rewrite Hg in Ht, Htm. by rewrite Ht, Htm, app_nil_r.
Qed.

(** A freshly constructed bucket ([reset = -1]) is limited only by a global
    halt, at any time [now >= -1]. *)
Theorem fresh_bucket_not_limited (id hsh rt : string) (m : Manager) (now : Z) :
  -1 <= now ->
  limited (new_ratelimit id hsh rt) m now = num_truthy (timeout m).
Proof.
  intros Hn. unfold limited; simpl.
  rewrite (proj2 (Z.ltb_ge now (-1))) by lia.
  by destruct (num_truthy (timeout m)).
Qed.

(** An update reporting a whole-number [remaining <= 0] with a whole-number
    reset [R] and a server date [D] (with [|R * 1000|], [|D|] and [now] at
    most 2^50), on a route without reactions and with no halt active or
    signalled, makes the bucket limited exactly at the times
    [t < R * 1000 - (D - now)]. *)
Theorem update_limited_window (b : Ratelimit) (m : Manager) (now rm R D : Z)
    (method rt : string) (h : HeaderSet) :
  to_number (hs_remaining h) = Fin rm -> rm <= 0 ->
  to_number (hs_reset h) = Fin R -> date_getTime (hs_date h) = Fin D ->
  Z.abs (R * 1000) <= exact_bound -> Z.abs D <= exact_bound ->
  Z.abs now <= exact_bound ->
  truthy (hs_reactions h) = false -> truthy (hs_global h) = false ->
  timeout m = Fin 0 ->
  exists b' m',
    update b m now method rt (DObj h) = Ok (b', m') /\
    forall t : Z, limited b' m' t = (t <? R * 1000 - (D - now)).
Proof.
  intros Hrm Hle HR HD HRb HDb Hnb Hre Hg Ht.
  destruct (update_obj_ok b m now method rt h) as (b' & m' & Hu).
  exists b', m'. split; [done|]. intros t.
  pose proof (update_fields _ _ _ _ _ _ _ _ Hu)
    as (_ & _ & _ & Hr & Hrs & _ & Ht' & _).
  unfold js_isNaN in Hr, Hrs. rewrite Hrm in Hr. rewrite Hre, HR in Hrs.
  simpl in Hr, Hrs, Ht'. rewrite Hg, Ht in Ht'.
  rewrite (calculateReset_in_range (hs_reset h) (hs_date h) now R HR
             (exact_bound_le_max_time _ HRb)), HD in Hrs. unfold limited. rewrite Ht', Hr, Hrs. simpl.
  rewrite (proj2 (Z.ltb_ge 0 rm) Hle). simpl.
  by replace (R * 1000 + - (D + - now)) with (R * 1000 - (D - now)) by lia.
Qed.

(** With the date header absent ([null], as [headers.get] returns it),
    [new Date(null)] is the epoch, so the API offset is [-now] and
    [calculateReset] returns [R * 1000 + now] for a whole-number reset [R]
    (with [|R * 1000|] and [now] at most 2^50). *)
Theorem calculateReset_null_date (reset : value) (now R : Z) :
  to_number reset = Fin R -> Z.abs (R * 1000) <= exact_bound ->
  Z.abs now <= exact_bound ->
  calculateReset reset VNull now = Fin (R * 1000 + now).
Proof.
  intros HR HRb Hnb.
  rewrite (calculateReset_in_range reset VNull now R HR
             (exact_bound_le_max_time _ HRb)).
  simpl. f_equal. lia.
Qed.


(** After an update with a whole-number reset [R] and server date [D] on a
    route without reactions (with [|R * 1000|], [|D|], [now] and the whole
    number [requestOffset] at most 2^50), the [timeout] getter is
    [R * 1000 - D + requestOffset] at the moment of the update: the local
    clock cancels out. *)
Theorem update_reset_timeout (b b' : Ratelimit) (m m' : Manager)
    (now R D o : Z) (method rt : string) (h : HeaderSet) :
  to_number (hs_reset h) = Fin R -> date_getTime (hs_date h) = Fin D ->
  Z.abs (R * 1000) <= exact_bound -> Z.abs D <= exact_bound ->
  Z.abs now <= exact_bound -> Z.abs o <= exact_bound ->
  truthy (hs_reactions h) = false ->
  update b m now method rt (DObj h) = Ok (b', m') ->
  ratelimit_timeout b' (Fin o) now = Fin (R * 1000 - D + o).
Proof.
  intros HR HD HRb HDb Hnb Hob Hre H.
  pose proof (update_fields _ _ _ _ _ _ _ _ H) as (_ & _ & _ & _ & Hrs & _).
  unfold js_isNaN in Hrs. rewrite Hre, HR in Hrs. simpl in Hrs.
  rewrite (calculateReset_in_range (hs_reset h) (hs_date h) now R HR
             (exact_bound_le_max_time _ HRb)), HD in Hrs. unfold ratelimit_timeout. rewrite Hrs. simpl.
  f_equal. lia.
Qed.

(** A global flag with the retry-after header absent ([null]) sets [after]
    to 0: the halt is [timeout = now], already truthy, and its clear is due
    1 ms later. *)
Theorem update_global_without_retry_after (b b' : Ratelimit) (m m' : Manager)
    (now : Z) (method rt : string) (h : HeaderSet) :
  truthy (hs_global h) = true -> hs_after h = VNull ->
  update b m now method rt (DObj h) = Ok (b', m') ->
  after b' = Fin 0 /\ timeout m' = Fin now /\ timers m' = timers m ++ [now + 1].
Proof.
  intros Hg Ha H.
  pose proof (update_fields _ _ _ _ _ _ _ _ H)
    as (_ & _ & _ & _ & _ & Haf & Ht & _ & _ & Htm & _).
  simpl in Haf, Ht, Htm. rewrite Ha in Haf, Ht, Htm. rewrite Hg in Ht, Htm.
  simpl in Haf, Ht, Htm. rewrite Z.add_0_r in Ht. done.
Qed.

End BucketExtras.

Section DispatchExtras.

Lemma str_lower_empty (s : string) : str_lower s = ""%string -> s = ""%string.
Proof. destruct s; done. Qed.


(** A message with [op] equal to ["__proto__"], sent to a dispatcher whose
    event table has no own [__proto__] entry, throws a TypeError:
    [IPCEvents["__proto__"]] is [Object.prototype], an object without
    [toLowerCase]. *)
Theorem ipc_step_proto_op_throws {S : Type}
    (handle : string -> value -> S -> res S) (ps : list (string * value))
    (methods : list string) (st : S) :
  own_get ps "__proto__" = None ->
  ipc_step handle (VObj ps) methods st (op_message (VStr "__proto__")) =
    Throw TypeError.
Proof.
  intros Hown. unfold ipc_step, incommingMessage.
  change (js_get (op_message (VStr "__proto__")) "data")
    with (Ok (VObj [("op"%string, VStr "__proto__")])).
  cbn [mbind res_bind].
  change (js_get (VObj [("op"%string, VStr "__proto__")]) "op")
    with (Ok (VStr "__proto__")).
  cbn [mbind res_bind].
  change (to_property_key (VStr "__proto__")) with "__proto__"%string.
  unfold js_get at 1. rewrite Hown. reflexivity.
Qed.

(** A recognized op reaches the handler [_name], [name] being its
    [IPCEvents] entry in lower case. *)
Theorem incommingMessage_recognized (ps : list (string * value))
    (methods : list string) (message data op : value) :
  js_get message "data" = Ok data -> js_get data "op" = Ok op ->
  recognized_op (VObj ps) methods op = true ->
  exists s, own_get ps (to_property_key op) = Some (VStr s) /\
    incommingMessage (VObj ps) methods message =
      Ok (Handled ("_" +:+ str_lower s)%string).
Proof.
  intros Hd Ho Hr. unfold recognized_op in Hr.
  destruct (own_get ps (to_property_key op)) as [[| | | |s| |]|] eqn:Hown;
    try discriminate.
  exists s. split; [done|].
  apply andb_true_iff in Hr as [Hne Hin].
  apply bool_decide_eq_true in Hne, Hin.
  unfold incommingMessage. rewrite Hd. cbn [mbind res_bind].
  rewrite Ho. cbn [mbind res_bind]. unfold js_get at 1. rewrite Hown.
  cbn [mbind res_bind optional_toLowerCase truthy to_property_key].
  rewrite bool_decide_false by (intros He; apply Hne, str_lower_empty, He).
  simpl. by rewrite bool_decide_true.
Qed.

End DispatchExtras.

(* ------------------------------------------------------------------ *)
(** ** Evaluation at explicit inputs *)

Section Samples.
#[local] Existing Instance sample_host.

(** C1: right after a global halt with [retry-after: 0], [timeout = now] is
    not in the future, yet [limited] is true (the bucket itself has 5
    requests left). *)
Lemma limited_counterexample :
  match update msg_bucket (fresh_manager NaN) 1000 "GET" "/channels/1/messages"
          (DObj (response_headers date_10s (VStr "5") (VStr "5") (VStr "2")
                   (VStr "h1") (VStr "0") true false)) with
  | Ok (b, m) => timeout m = Fin 1000 /\ limited b m 1000 = true /\
                 spec_limited b m 1000 = false
  | Throw _ => False
  end.
Proof. vm_compute. repeat split. Qed.



(** C3: the same new hash applied twice to a bucket logs two hash-update
    messages. *)
Lemma hash_migration_counterexample :
  match update msg_bucket (fresh_manager NaN) 0 "GET" "/channels/1/messages"
          (DObj (response_headers date_0s (VStr "5") (VStr "4") (VStr "1")
                   (VStr "h2") VNull false false)) with
  | Ok (b1, m1) =>
      match update b1 m1 0 "GET" "/channels/1/messages"
              (DObj (response_headers date_0s (VStr "5") (VStr "4") (VStr "1")
                       (VStr "h2") VNull false false)) with
      | Ok (b2, m2) => hash_events (debug_log m2) = 2%nat
      | Throw _ => False
      end
  | Throw _ => False
  end.
Proof. vm_compute. reflexivity. Qed.

Lemma update_hash_migration_witness :
  exists b1 m1 b2 m2,
    update msg_bucket (fresh_manager NaN) 0 "GET" "/channels/1/messages"
      (DObj (response_headers date_0s (VStr "5") (VStr "4") (VStr "1")
               (VStr "h2") VNull false false)) = Ok (b1, m1) /\
    update b1 m1 0 "GET" "/channels/1/messages"
      (DObj (response_headers date_0s (VStr "5") (VStr "4") (VStr "1")
               (VStr "h2") VNull false false)) = Ok (b2, m2) /\
    hashes m1 = <[ "GET:/channels/1/messages"%string := VStr "h2" ]> ∅ /\
    hashes m2 = hashes m1 /\
    hash b1 = "h1"%string /\ hash b2 = "h1"%string /\
    hash_events (debug_log m1) = 1%nat /\
    hash_events (debug_log m2) = S (hash_events (debug_log m1)).
Proof.
  do 4 eexists. split; [reflexivity|]. split; [reflexivity|].
  exact (update_hash_migration msg_bucket _ _ (fresh_manager NaN) _ _ 0 0
           "GET" "/channels/1/messages" "h2"
           (response_headers date_0s (VStr "5") (VStr "4") (VStr "1")
              (VStr "h2") VNull false false)
           eq_refl ltac:(discriminate) ltac:(discriminate) eq_refl eq_refl).
Defined.

Lemma update_reactions_reset_witness :
  exists b' m',
    update msg_bucket (fresh_manager (Fin 60000)) 1000 "PUT" reaction_route
      (DObj (response_headers date_10s (VStr "1") (VStr "0") (VStr "5")
               VNull VNull false true)) = Ok (b', m') /\
    reset b' = num_add (num_sub (date_getTime date_10s)
                                (getAPIOffset date_10s 1000))
                       (Fin 60000) /\
    (forall r : value,
       reset_of (update msg_bucket (fresh_manager (Fin 60000)) 1000 "PUT"
                  reaction_route
                  (DObj (hs_with_reset (response_headers date_10s (VStr "1")
                           (VStr "0") (VStr "5") VNull VNull false true) r)))
       = Some (reset b')).
Proof.
  exact (update_reactions_reset msg_bucket (fresh_manager (Fin 60000)) 1000
           "PUT" reaction_route
           (response_headers date_10s (VStr "1") (VStr "0") (VStr "5")
              VNull VNull false true) eq_refl).
Defined.

(** C6: a reset header of 10^13 s is numeric, but 10^16 ms lies outside
    the Date range, so [new Date(reset * 1000).getTime()] is NaN. *)
Lemma calculateReset_counterexample :
  calculateReset (VStr "10000000000000") date_10s 10000 = NaN /\
  spec_reset (VStr "10000000000000") date_10s 10000 = Fin 10000000000000000.
Proof. vm_compute. split; reflexivity. Qed.

Lemma calculateReset_value_witness :
  calculateReset (VStr "1700") date_10s 10000 =
    Fin (1700 * 1000 - (10000 - 10000)) /\
  (10000 = 10000 ->
   calculateReset (VStr "1700") date_10s 10000 = Fin (1700 * 1000)).
Proof.
  exact (calculateReset_value (VStr "1700") date_10s 10000 1700 10000
           eq_refl eq_refl ltac:(vm_compute; discriminate)
           ltac:(vm_compute; discriminate) ltac:(vm_compute; discriminate)).
Defined.

(** C8: [update] with the header argument omitted does not fail; it resets
    the bucket's counters. *)
Lemma update_validation_counterexample :
  update msg_bucket (fresh_manager NaN) 1000 "GET" "/channels/1/messages"
    DUndef =
  Ok (mkRatelimit "GET:/channels/1/messages" "h1" "/channels/1/messages"
        PInf (Fin (-1)) (Fin 1000) (Fin (-1)), fresh_manager NaN).
Proof. reflexivity. Qed.

Lemma constructData_validation_witness :
  constructData None (Some [("date"%string, "x"%string)]) =
    Throw (Error "Request and Headers can't be null") /\
  (forall (b : Ratelimit) (m : Manager) (now : Z) (method route : string),
     update b m now method route DUndef =
       Ok (set_counters b PInf (Fin (-1)) (Fin now) (Fin (-1)), m) /\
     update b m now method route DNull = Throw TypeError).
Proof.
  apply (constructData_validation None (Some [("date"%string, "x"%string)])).
  left. reflexivity.
Defined.

(** C9: two updates with the bucket's own hash: reset goes from 100 s back
    to 50 s. *)
Lemma reset_monotone_counterexample :
  match update msg_bucket (fresh_manager NaN) 0 "GET" "/channels/1/messages"
          (DObj (response_headers date_0s (VStr "5") (VStr "4") (VStr "100")
                   (VStr "h1") VNull false false)) with
  | Ok (b1, m1) =>
      match update b1 m1 0 "GET" "/channels/1/messages"
              (DObj (response_headers date_0s (VStr "5") (VStr "3") (VStr "50")
                       (VStr "h1") VNull false false)) with
      | Ok (b2, m2) => reset b1 = Fin 100000 /\ reset b2 = Fin 50000 /\
                       hash b2 = hash b1
      | Throw _ => False
      end
  | Throw _ => False
  end.
Proof. vm_compute. repeat split. Qed.

Lemma incommingMessage_needs_data_witness :
  incommingMessage IPCEvents master_ipc_methods (VObj []) = Throw TypeError /\
  exists ps', js_get (op_message (VNum (Fin 2))) "data" = Ok (VObj ps').
Proof.
  pose proof (incommingMessage_needs_data IPCEvents master_ipc_methods
                (VObj [])) as [H1 _].
  pose proof (incommingMessage_needs_data IPCEvents master_ipc_methods
                (op_message (VNum (Fin 2)))) as [_ H2].
  split.
  - apply H1. reflexivity.
  - apply (H2 _ "_broadcast" eq_refl); vm_compute; reflexivity.
Defined.

End Samples.

Section SamplesExtras.
#[local] Existing Instance sample_host.

Lemma update_keeps_identity_witness :
  exists b' m',
    update msg_bucket (fresh_manager NaN) 0 "GET" "/channels/1/messages"
      (DObj (response_headers date_0s (VStr "5") (VStr "4") (VStr "1")
               (VStr "h2") (VStr "3") true false)) = Ok (b', m') /\
    rid b' = rid msg_bucket /\ hash b' = hash msg_bucket /\
    route b' = route msg_bucket.
Proof.
  do 2 eexists. split; [reflexivity|].
  exact (update_keeps_identity msg_bucket _ (fresh_manager NaN) _ 0 "GET"
           "/channels/1/messages"
           (DObj (response_headers date_0s (VStr "5") (VStr "4") (VStr "1")
                    (VStr "h2") (VStr "3") true false)) eq_refl).
Defined.

Lemma update_hashes_other_keys_witness :
  exists b' m',
    update msg_bucket (fresh_manager NaN) 0 "GET" "/channels/1/messages"
      (DObj (response_headers date_0s (VStr "5") (VStr "4") (VStr "1")
               (VStr "h2") VNull false false)) = Ok (b', m') /\
    hashes m' !! "POST:/channels/1/messages"%string =
      hashes (fresh_manager NaN) !! "POST:/channels/1/messages"%string.
Proof.
  do 2 eexists. split; [reflexivity|].
  exact (update_hashes_other_keys msg_bucket _ (fresh_manager NaN) _ 0 "GET"
           "/channels/1/messages" "POST:/channels/1/messages"
           (DObj (response_headers date_0s (VStr "5") (VStr "4") (VStr "1")
                    (VStr "h2") VNull false false))
           ltac:(discriminate) eq_refl).
Defined.

Lemma update_same_hash_no_migration_witness :
  exists b' m',
    update msg_bucket (fresh_manager NaN) 0 "GET" "/channels/1/messages"
      (DObj (response_headers date_0s (VStr "5") (VStr "4") (VStr "1")
               (VStr "h1") VNull false false)) = Ok (b', m') /\
    hashes m' = hashes (fresh_manager NaN) /\
    hash_events (debug_log m') = hash_events (debug_log (fresh_manager NaN)).
Proof.
  do 2 eexists. split; [reflexivity|].
  exact (update_same_hash_no_migration msg_bucket _ (fresh_manager NaN) _ 0
           "GET" "/channels/1/messages"
           (response_headers date_0s (VStr "5") (VStr "4") (VStr "1")
              (VStr "h1") VNull false false)
           (or_intror eq_refl) eq_refl).
Defined.

Lemma update_not_global_keeps_halt_witness :
  exists b' m',
    update msg_bucket (mkManager (Fin 7000) ∅ [] [7000] NaN) 0 "GET"
      "/channels/1/messages"
      (DObj (response_headers date_0s (VStr "5") (VStr "4") (VStr "1")
               (VStr "h1") VNull false false)) = Ok (b', m') /\
    timeout m' = Fin 7000 /\ timers m' = [7000].
Proof.
  do 2 eexists. split; [reflexivity|].
  exact (update_not_global_keeps_halt msg_bucket _
           (mkManager (Fin 7000) ∅ [] [7000] NaN) _ 0 "GET"
           "/channels/1/messages"
           (response_headers date_0s (VStr "5") (VStr "4") (VStr "1")
              (VStr "h1") VNull false false) eq_refl eq_refl).
Defined.

Lemma fresh_bucket_not_limited_witness :
  limited (new_ratelimit "GET:/users/@me" "h1" "/users/@me")
    (fresh_manager NaN) 1000 = num_truthy (Fin 0).
Proof.
  exact (fresh_bucket_not_limited "GET:/users/@me" "h1" "/users/@me"
           (fresh_manager NaN) 1000 ltac:(lia)).
Defined.

Lemma update_limited_window_witness :
  exists b' m',
    update msg_bucket (fresh_manager NaN) 1000 "GET" "/channels/1/messages"
      (DObj (response_headers date_10s (VStr "5") (VStr "0") (VStr "12")
               (VStr "h1") VNull false false)) = Ok (b', m') /\
    forall t : Z, limited b' m' t = (t <? 12 * 1000 - (10000 - 1000)).
Proof.
  exact (update_limited_window msg_bucket (fresh_manager NaN) 1000 0 12 10000
           "GET" "/channels/1/messages"
           (response_headers date_10s (VStr "5") (VStr "0") (VStr "12")
              (VStr "h1") VNull false false)
           eq_refl ltac:(lia) eq_refl eq_refl
           ltac:(vm_compute; discriminate) ltac:(vm_compute; discriminate)
           ltac:(vm_compute; discriminate) eq_refl eq_refl eq_refl).
Defined.

Lemma calculateReset_null_date_witness :
  calculateReset (VStr "12") VNull 1000 = Fin (12 * 1000 + 1000).
Proof.
  exact (calculateReset_null_date (VStr "12") 1000 12 eq_refl
           ltac:(vm_compute; discriminate) ltac:(vm_compute; discriminate)).
Defined.


Lemma update_reset_timeout_witness :
  exists b' m',
    update msg_bucket (fresh_manager NaN) 1000 "GET" "/channels/1/messages"
      (DObj (response_headers date_10s (VStr "5") (VStr "0") (VStr "12")
               (VStr "h1") VNull false false)) = Ok (b', m') /\
    ratelimit_timeout b' (Fin 500) 1000 = Fin (12 * 1000 - 10000 + 500).
Proof.
  do 2 eexists. split; [reflexivity|].
  exact (update_reset_timeout msg_bucket _ (fresh_manager NaN) _ 1000 12 10000
           500 "GET" "/channels/1/messages"
           (response_headers date_10s (VStr "5") (VStr "0") (VStr "12")
              (VStr "h1") VNull false false)
           eq_refl eq_refl ltac:(vm_compute; discriminate)
           ltac:(vm_compute; discriminate) ltac:(vm_compute; discriminate)
           ltac:(vm_compute; discriminate) eq_refl eq_refl).
Defined.

Lemma update_global_without_retry_after_witness :
  exists b' m',
    update msg_bucket (fresh_manager NaN) 1000 "GET" "/channels/1/messages"
      (DObj (response_headers date_10s VNull VNull VNull VNull VNull
               true false)) = Ok (b', m') /\
    after b' = Fin 0 /\ timeout m' = Fin 1000 /\ timers m' = [] ++ [1000 + 1].
Proof.
  do 2 eexists. split; [reflexivity|].
  exact (update_global_without_retry_after msg_bucket _ (fresh_manager NaN) _
           1000 "GET" "/channels/1/messages"
           (response_headers date_10s VNull VNull VNull VNull VNull true false)
           eq_refl eq_refl eq_refl).
Defined.


Lemma ipc_step_proto_op_throws_witness :
  own_get (match IPCEvents with VObj ps => ps | _ => [] end) "__proto__" = None /\
  ipc_step (fun _ _ (st : Z) => Ok st) IPCEvents master_ipc_methods 0
    (op_message (VStr "__proto__")) = Throw TypeError.
Proof.
  split; [vm_compute; reflexivity|].
  exact (ipc_step_proto_op_throws (fun _ _ (st : Z) => Ok st)
           (match IPCEvents with VObj ps => ps | _ => [] end)
           master_ipc_methods 0 ltac:(vm_compute; reflexivity)).
Defined.

Lemma incommingMessage_recognized_witness :
  exists s, own_get (match IPCEvents with VObj ps => ps | _ => [] end)
              (to_property_key (VNum (Fin 2))) = Some (VStr s) /\
    incommingMessage IPCEvents master_ipc_methods (op_message (VNum (Fin 2))) =
      Ok (Handled ("_" +:+ str_lower s)%string).
Proof.
  exact (incommingMessage_recognized
           (match IPCEvents with VObj ps => ps | _ => [] end) master_ipc_methods
           (op_message (VNum (Fin 2)))
           (VObj [("op"%string, VNum (Fin 2))]) (VNum (Fin 2))
           eq_refl eq_refl ltac:(vm_compute; reflexivity)).
Defined.

End SamplesExtras.
